(** * MPFS2 image decoder (src/mpfs2/mpfs2.py): shallow embedding

    The image [fs] is a Python [bytes] object, modelled as a list of
    [Byte.byte].  A Python [str] is modelled as the list of its code points
    ([pystr]).  Python exceptions that escape a function are values of
    [exn]; a Python dict is an insertion-ordered association list. *)

From Stdlib Require Import ZArith String Ascii List Bool Lia.
From Stdlib Require Import Strings.Byte.
Import ListNotations.
Open Scope Z_scope.

(** ** Python values *)

Definition bytes := list byte.

Definition pystr := list Z.

(** Code point of a byte: Python's integer value of [fs[i]]. *)
Definition bval (b : byte) : Z := Z.of_N (Byte.to_N b).

(** A string literal of the source, as a list of code points. *)
Definition lit (s : string) : pystr :=
  map (fun a => Z.of_nat (nat_of_ascii a)) (list_ascii_of_string s).

(** Exceptions the decoder can raise (and not catch). *)
Inductive exn :=
| IndexError        (* fs[k] with k out of range *)
| StructError       (* struct.unpack on a slice of the wrong size *)
| GzipError.        (* gzip.decompress on a corrupt stream *)

Inductive result (A : Type) :=
| Ok (a : A)
| Err (e : exn).
Arguments Ok {A} a.
Arguments Err {A} e.

Definition bind {A B} (m : result A) (k : A -> result B) : result B :=
  match m with Ok a => k a | Err e => Err e end.

Notation "'let*' x ':=' m 'in' k" := (bind m (fun x => k))
  (at level 200, x name, m at level 100, k at level 200).

(** [fs[k]] (Python indexing; a negative index counts from the end). *)
Definition py_index (fs : bytes) (k : Z) : result Z :=
  let k' := if k <? 0 then Z.of_nat (length fs) + k else k in
  if (k' <? 0) || (Z.of_nat (length fs) <=? k') then Err IndexError
  else match nth_error fs (Z.to_nat k') with
       | Some b => Ok (bval b)
       | None => Err IndexError
       end.

(** [fs[a:b]] for non-negative bounds [a], [b] (the only ones the decoder
    uses: all of them are sums of unsigned fields); out-of-range bounds are
    clamped, as Python does. *)
Definition py_slice (fs : bytes) (a b : Z) : bytes :=
  firstn (Z.to_nat (b - a)) (skipn (Z.to_nat a) fs).

(** [fs[a:]]. *)
Definition py_drop (fs : bytes) (a : Z) : bytes := skipn (Z.to_nat a) fs.

(** [range(a, b, step)] for a positive step. *)
Fixpoint py_range_fuel (fuel : nat) (a b step : Z) : list Z :=
  match fuel with
  | O => []
  | S f => if a <? b then a :: py_range_fuel f (a + step) b step else []
  end.

Definition py_range (a b step : Z) : list Z :=
  py_range_fuel (Z.to_nat ((b - a + step - 1) / step)) a b step.

(** ** struct.unpack *)

(** Little-endian unsigned integer of a byte string. *)
Fixpoint le_uint (l : bytes) : Z :=
  match l with
  | [] => 0
  | b :: l' => bval b + 256 * le_uint l'
  end.

(** [struct.unpack("<H", s)]: exactly 2 bytes, else struct.error. *)
Definition unpack_H (s : bytes) : result Z :=
  if Nat.eqb (length s) 2 then Ok (le_uint s) else Err StructError.

(** [struct.unpack("II", s)]: native byte order, size and alignment; two
    4-byte unsigned ints with no padding between them, 8 bytes in all.
    The native byte order is little-endian on the platforms the tool runs
    on (x86, ARM). *)
Definition unpack_II (s : bytes) : result (Z * Z) :=
  if Nat.eqb (length s) 8 then Ok (le_uint (firstn 4 s), le_uint (skipn 4 s))
  else Err StructError.

(** ** FileRecord *)

Record FileRecord := mkFileRecord {
  StringPtr : Z;
  DataPtr : Z;
  Len : Z;
  Timestamp : Z;
  Microtime : Z;
  Flags : Z
}.

Definition MPFS2_FLAG_ISZIPPED : Z := 1.
Definition MPFS2_FLAG_HASINDEX : Z := 2.

(** [r.Flags & MPFS2_FLAG_HASINDEX == MPFS2_FLAG_HASINDEX] *)
Definition has_index (r : FileRecord) : bool :=
  Z.land (Flags r) MPFS2_FLAG_HASINDEX =? MPFS2_FLAG_HASINDEX.

(** [r.Flags & MPFS2_FLAG_ISZIPPED == MPFS2_FLAG_ISZIPPED] *)
Definition is_zipped (r : FileRecord) : bool :=
  Z.land (Flags r) MPFS2_FLAG_ISZIPPED =? MPFS2_FLAG_ISZIPPED.

(** [FileRecord._make(struct.unpack("<IIIIIH", s))]: exactly 22 bytes. *)
Definition unpack_record (s : bytes) : result FileRecord :=
  if Nat.eqb (length s) 22 then
    Ok (mkFileRecord (le_uint (py_slice s 0 4)) (le_uint (py_slice s 4 8))
                     (le_uint (py_slice s 8 12)) (le_uint (py_slice s 12 16))
                     (le_uint (py_slice s 16 20)) (le_uint (py_slice s 20 22)))
  else Err StructError.

(** ** Name and variable decoding *)

(** The digit characters of [n >= 0] in [base] (upper-case letters above 9). *)
Definition digit_char (d : Z) : Z := if d <? 10 then 48 + d else 55 + d.

Fixpoint digits_fuel (fuel : nat) (base n : Z) (acc : pystr) : pystr :=
  match fuel with
  | O => acc
  | S f =>
      let acc' := digit_char (n mod base) :: acc in
      if n / base =? 0 then acc' else digits_fuel f base (n / base) acc'
  end.

Definition digits (base n : Z) : pystr :=
  digits_fuel (S (Z.to_nat (Z.log2 n))) base n [].

(** [f"{ptr:06X}"] *)
Definition hex06 (ptr : Z) : pystr :=
  let ds := digits 16 ptr in repeat 48 (6 - List.length ds) ++ ds.

(** The loop of [get_string]: [for i in fs[ptr:]], stopping at a 0 byte,
    control characters rendered as [f"<{i}>"]. *)
Definition render_char (i : Z) : pystr :=
  if i <? 32 then lit "<" ++ digits 10 i ++ lit ">" else [i].

Fixpoint render_name (l : bytes) : pystr :=
  match l with
  | [] => []
  | b :: l' =>
      let i := bval b in
      if i =? 0 then [] else render_char i ++ render_name l'
  end.

(** [get_string(fs, ptr, hex_name)] *)
Definition get_string (fs : bytes) (ptr : Z) (hex_name : bool) : result pystr :=
  let* b := py_index fs ptr in
  if b =? 0 then Ok (if hex_name then hex06 ptr else lit "<no name>")
  else Ok (render_name (py_drop fs ptr)).

(** The loop of [get_var]: [for i in fs[ptr + 1 :]] up to the next ['~']. *)
Fixpoint take_var (l : bytes) : pystr :=
  match l with
  | [] => []
  | b :: l' => if bval b =? 126 then [] else bval b :: take_var l'
  end.

(** [get_var(fs, ptr)] *)
Definition get_var (fs : bytes) (ptr : Z) : result pystr :=
  let* b := py_index fs ptr in
  if negb (b =? 126) then Ok (lit "<no var>")
  else Ok (take_var (py_drop fs (ptr + 1))).

(** ** The dynamic-variable dict *)

Definition dict := list (Z * pystr).

Definition pystr_eqb (s t : pystr) : bool := if list_eq_dec Z.eq_dec s t then true else false.

(** [d[k]] when [k in d]. *)
Fixpoint dict_get (d : dict) (k : Z) : option pystr :=
  match d with
  | [] => None
  | (k', v) :: d' => if k =? k' then Some v else dict_get d' k
  end.

(** [d[k] = v]: replaces in place, or appends a new key at the end. *)
Fixpoint dict_set (d : dict) (k : Z) (v : pystr) : dict :=
  match d with
  | [] => [(k, v)]
  | (k', v') :: d' => if k =? k' then (k', v) :: d' else (k', v') :: dict_set d' k v
  end.

(** ** find_variables *)

(** How a loop of [find_variables] ends:
    - [Cont]: it ran to its end (for the record walk: with no has-index
      record left waiting for its companion);
    - [Conflict]: [raise StopIteration] after "Bad index variable";
    - [Dangling]: [v = next(it)] raised StopIteration (a has-index record
      is the last record);
    - [Raise]: an exception that [find_variables] does not catch. *)
Inductive loop_out :=
| Cont (d : dict)
| Conflict (d : dict)
| Dangling (d : dict)
| Raise (e : exn).

(** The inner loop over [range(v.DataPtr, v.DataPtr + v.Len, 8)], where
    [rdata] is [r.DataPtr]. *)
Fixpoint scan_pairs (fs : bytes) (rdata : Z) (is : list Z) (variables : dict)
  : loop_out :=
  match is with
  | [] => Cont variables
  | i :: is' =>
      match unpack_II (py_slice fs i (i + 8)) with
      | Err e => Raise e
      | Ok (offset, num_var) =>
          match get_var fs (rdata + offset) with
          | Err e => Raise e
          | Ok var_name =>
              match dict_get variables num_var with
              | None => scan_pairs fs rdata is' (dict_set variables num_var var_name)
              | Some n =>
                  if pystr_eqb n var_name then scan_pairs fs rdata is' variables
                  else Conflict variables
              end
          end
      end
  end.

(** The indices of the companion's 8-byte pairs. *)
Definition companion_range (v : FileRecord) : list Z :=
  py_range (DataPtr v) (DataPtr v + Len v) 8.

(** The outer [while True] loop over [it = iter(record)]. *)
Fixpoint walk (fs : bytes) (rs : list FileRecord) (variables : dict) : loop_out :=
  match rs with
  | [] => Cont variables
  | r :: rs' =>
      if negb (has_index r) then walk fs rs' variables
      else match rs' with
           | [] => Dangling variables
           | v :: rs'' =>
               match scan_pairs fs (DataPtr r) (companion_range v) variables with
               | Cont d => walk fs rs'' d
               | o => o
               end
           end
  end.

(** [find_variables(fs, record)]: the StopIteration of [Conflict] and
    [Dangling] is caught and the dict built so far is returned. *)
Definition find_variables (fs : bytes) (record : list FileRecord) : result dict :=
  match walk fs record [] with
  | Cont d | Conflict d | Dangling d => Ok d
  | Raise e => Err e
  end.

(** ** main *)

Record options := mkOptions {
  verbose : bool;
  extract : bool;
  list_files : bool;
  list_variables : bool
}.

(** What [main] prints, writes or raises, in order. *)
Inductive event :=
| EvNotMPFS                                 (* "File is not a MPFS filesystem", return 2 *)
| EvBadIndexVariable                        (* "Bad index variable" (stderr) *)
| EvHeader (ver_hi ver_lo n n_idx nvars : Z) (* Version / Number of files / ... *)
| EvBadEntryName (i : Z)                    (* "should have a name", break *)
| EvBadEntryIndex (i : Z)                   (* "should be an index", break *)
| EvListVerbose (i : Z) (r : FileRecord) (filename : pystr)
| EvList (i : Z) (r : FileRecord) (filename : pystr)
| EvExtracted (filename : pystr) (data : bytes)   (* f.write_bytes(data) *)
| EvVariable (num : Z) (name : pystr)
| EvWriteIdx (variables : dict)             (* DYNAMIC_VARIABLES.idx *)
| EvRaised (e : exn).                       (* uncaught exception *)

Definition mpfs_sig : bytes := [x4d; x50; x46; x53].

Definition bytes_eqb (s t : bytes) : bool :=
  if list_eq_dec Byte.byte_eq_dec s t then true else false.

(** The loop reading the [n] name hashes from [offset]. *)
Fixpoint read_hashes (fs : bytes) (k : nat) (offset : Z) : result (list Z * Z) :=
  match k with
  | O => Ok ([], offset)
  | S k' =>
      let* h := unpack_H (py_slice fs offset (offset + 2)) in
      let* rest := read_hashes fs k' (offset + 2) in
      Ok (h :: fst rest, snd rest)
  end.

(** The loop reading the [n] 22-byte file records from [offset]. *)
Fixpoint read_records (fs : bytes) (k : nat) (offset : Z)
  : result (list FileRecord * Z) :=
  match k with
  | O => Ok ([], offset)
  | S k' =>
      let* r := unpack_record (py_slice fs offset (offset + 22)) in
      let* rest := read_records fs k' (offset + 22) in
      Ok (r :: fst rest, snd rest)
  end.

Record tables := mkTables {
  ver_hi : Z;
  ver_lo : Z;
  file_count : Z;
  name_hash : list Z;
  record : list FileRecord;
  table_end : Z            (* [offset] after the two loops *)
}.

(** Lines 139-153 of [main], after the signature check. *)
Definition parse_tables (fs : bytes) : result tables :=
  let* hi := py_index fs 4 in
  let* lo := py_index fs 5 in
  let* n := unpack_H (py_slice fs 6 8) in
  let* hs := read_hashes fs (Z.to_nat n) 8 in
  let* rs := read_records fs (Z.to_nat n) (snd hs) in
  Ok (mkTables hi lo n (fst hs) (fst rs) (snd rs)).

(** [not next_is_indexfile] *)
Definition py_not (next_is : option pystr) : bool :=
  match next_is with None => true | Some s => match s with [] => true | _ => false end end.

(** State of the per-record loop: running with [next_is_indexfile], left
    by [break], or ended by an exception. *)
Inductive pstate :=
| Running (next_is : option pystr)
| Broke
| Crashed.

Section Main.

(** [gzip.decompress], an external routine. *)
Variable gunzip : bytes -> result bytes.

(** The payload written for an extracted record (lines 217-222). *)
Definition extract_payload (fs : bytes) (r : FileRecord) : result bytes :=
  if Flags r =? 1 then gunzip (py_slice fs (DataPtr r) (DataPtr r + Len r))
  else Ok (py_slice fs (DataPtr r) (DataPtr r + Len r)).

(** One iteration of [for i, r in enumerate(record)] (lines 174-230). *)
Definition process_record (fs : bytes) (o : options) (i : Z)
    (next_is : option pystr) (r : FileRecord) : list event * pstate :=
  match py_index fs (StringPtr r) with
  | Err e => ([EvRaised e], Crashed)
  | Ok b =>
      let named : list event * pstate + pystr :=
        match next_is with
        | None =>
            if b =? 0 then inl ([EvBadEntryName i], Broke)
            else match get_string fs (StringPtr r) false with
                 | Ok s => inr s
                 | Err e => inl ([EvRaised e], Crashed)
                 end
        | Some prev =>
            if negb (b =? 0) then inl ([EvBadEntryIndex i], Broke)
            else inr (prev ++ lit "-index")
        end in
      match named with
      | inl stop => stop
      | inr filename =>
          let listing :=
            if list_files o then
              if verbose o then [EvListVerbose i r filename]
              else if py_not next_is then [EvList i r filename] else []
            else [] in
          let next := Running (if has_index r then Some filename else None) in
          if py_not next_is && extract o then
            match extract_payload fs r with
            | Ok data => (listing ++ [EvExtracted filename data], next)
            | Err e => (listing ++ [EvRaised e], Crashed)
            end
          else (listing, next)
      end
  end.

(** The per-record loop from record number [i] on. *)
Fixpoint pass (fs : bytes) (o : options) (i : Z) (st : pstate)
    (rs : list FileRecord) : list event * pstate :=
  match st, rs with
  | Running nx, r :: rs' =>
      let (evs, st') := process_record fs o i nx r in
      let (evs', st'') := pass fs o (i + 1) st' rs' in
      (evs ++ evs', st'')
  | _, _ => ([], st)
  end.

(** [main(mpfs2_file, ...)] once [fs] has been read. *)
Definition main (fs : bytes) (o : options) : list event :=
  if negb (bytes_eqb (py_slice fs 0 4) mpfs_sig) then [EvNotMPFS]
  else match parse_tables fs with
  | Err e => [EvRaised e]
  | Ok t =>
      let n_idx := Z.of_nat (List.length (filter has_index (record t))) in
      (* [variables = find_variables(fs, record)]: the same walk; its
         [Conflict] ending is the "Bad index variable" warning. *)
      let w := walk fs (record t) [] in
      match w with
      | Raise e => [EvRaised e]
      | Cont variables | Conflict variables | Dangling variables =>
          let warn := match w with Conflict _ => [EvBadIndexVariable] | _ => [] end in
          let header := EvHeader (ver_hi t) (ver_lo t) (file_count t) n_idx
                                 (Z.of_nat (List.length variables)) in
          let (evs, st) := pass fs o 0 (Running None) (record t) in
          let tail :=
            match st with
            | Crashed => []
            | _ =>
                (if list_variables o && negb (Nat.eqb (List.length variables) 0)
                 then map (fun p => EvVariable (fst p) (snd p)) variables else [])
                ++ (if extract o && negb (Nat.eqb (List.length variables) 0)
                    then [EvWriteIdx variables] else [])
            end in
          warn ++ header :: evs ++ tail
      end
  end.

End Main.

(** ** Test images *)

(** A byte string given by its values (each in [0, 256)). *)
Definition mk (l : list Z) : bytes :=
  map (fun z => match Byte.of_N (Z.to_N z) with Some b => b | None => x00 end) l.

(** [NVM_MEDIA_DATA] of tests/test_mpfs2.py. *)
Definition NVM_MEDIA_DATA : bytes := mk [
  0x4d;0x50;0x46;0x53;0x02;0x01;0x02;0x00;0x68;0x8f;0x08;0x9f;0x38;0x00;0x00;0x00;
  0x4a;0x00;0x00;0x00;0x0b;0x00;0x00;0x00;0x4a;0x3c;0xd6;0x53;0x00;0x00;0x00;0x00;
  0x00;0x00;0x41;0x00;0x00;0x00;0x55;0x00;0x00;0x00;0x0a;0x00;0x00;0x00;0x50;0x3c;
  0xd6;0x53;0x00;0x00;0x00;0x00;0x00;0x00;0x46;0x49;0x4c;0x45;0x2e;0x74;0x78;0x74;
  0x00;0x54;0x45;0x53;0x54;0x2e;0x74;0x78;0x74;0x00;0x48;0x65;0x6c;0x6c;0x6f;0x20;
  0x57;0x6f;0x72;0x6c;0x64;0x31;0x32;0x33;0x34;0x35;0x36;0x37;0x38;0x39;0x30].

Definition no_gzip (b : bytes) : result bytes := Err GzipError.
Definition opt_list : options := mkOptions false false true false.

(** ** Properties *)

Lemma py_slice_0_4_eq (fs fs' : bytes) :
  firstn 4 fs = firstn 4 fs' -> py_slice fs 0 4 = py_slice fs' 0 4.
Proof. intros H. unfold py_slice. simpl. exact H. Qed.

Lemma render_name_no_zero (l : bytes) :
  (forall b, In b l -> bval b <> 0) ->
  render_name l = flat_map (fun b => render_char (bval b)) l.
Proof.
  induction l as [|b l IH]; intros Hnz; simpl; [reflexivity|].
  destruct (Z.eqb_spec (bval b) 0) as [E|E].
  - exfalso. apply (Hnz b); [left; reflexivity | exact E].
  - rewrite IH; [reflexivity|]. intros x Hx. apply Hnz. right. exact Hx.
Qed.

(** C3 (corrected), counterexample: on the one-byte image ["A"] (no 0
    terminator after offset 0), [get_string] returns the name "A". *)
Lemma get_string_unterminated_returns_name :
  get_string (mk [65]) 0 false = Ok (lit "A").
Proof. vm_compute. reflexivity. Qed.

(** C3 (corrected): when the byte at [ptr] is non-zero and no 0 byte occurs
    from [ptr] to the end of the image, [get_string] does not fail: it
    returns the rendering of every byte from [ptr] to the end of the image. *)
Theorem get_string_unterminated (fs : bytes) (ptr b : Z) (hex_name : bool) :
  py_index fs ptr = Ok b -> b <> 0 ->
  (forall x, In x (py_drop fs ptr) -> bval x <> 0) ->
  get_string fs ptr hex_name =
    Ok (flat_map (fun x => render_char (bval x)) (py_drop fs ptr)).
Proof.
  intros Hb Hnz Hall. unfold get_string. rewrite Hb. simpl.
  destruct (Z.eqb_spec b 0) as [E|_]; [contradiction|].
  rewrite render_name_no_zero by exact Hall. reflexivity.
Qed.

Lemma get_string_unterminated_witness :
  py_index (mk [65; 66]) 0 = Ok 65 /\ 65 <> 0 /\
  (forall x, In x (py_drop (mk [65; 66]) 0) -> bval x <> 0) /\
  get_string (mk [65; 66]) 0 false =
    Ok (flat_map (fun x => render_char (bval x)) (py_drop (mk [65; 66]) 0)).
Proof.
  assert (Hall : forall x, In x (py_drop (mk [65; 66]) 0) -> bval x <> 0).
  { intros x Hx. simpl in Hx. destruct Hx as [<-|[<-|[]]]; vm_compute; discriminate. }
  split; [reflexivity|]. split; [discriminate|]. split; [exact Hall|].
  apply (get_string_unterminated (mk [65; 66]) 0 65 false); [reflexivity|discriminate|exact Hall].
Defined.

(** C8: a buffer whose first 4 bytes are not "MPFS" makes [main] print
    "File is not a MPFS filesystem" and return 2, whatever the bytes after
    offset 3 are: any buffer with the same first 4 bytes gives the same. *)
Theorem main_bad_signature (gunzip : bytes -> result bytes) (o : options) (fs : bytes) :
  py_slice fs 0 4 <> mpfs_sig ->
  main gunzip fs o = [EvNotMPFS] /\
  (forall fs', firstn 4 fs' = firstn 4 fs -> main gunzip fs' o = [EvNotMPFS]).
Proof.
  intros Hsig.
  assert (Hm : forall fs', py_slice fs' 0 4 <> mpfs_sig -> main gunzip fs' o = [EvNotMPFS]).
  { intros fs' H'. unfold main, bytes_eqb.
    destruct (list_eq_dec Byte.byte_eq_dec (py_slice fs' 0 4) mpfs_sig); [contradiction|].
    reflexivity. }
  split; [apply Hm, Hsig|].
  intros fs' Heq. apply Hm. rewrite (py_slice_0_4_eq fs' fs Heq). exact Hsig.
Qed.

Lemma main_bad_signature_witness :
  py_slice (mk [0x4d; 0x50; 0x46; 0x54; 1; 2]) 0 4 <> mpfs_sig /\
  main no_gzip (mk [0x4d; 0x50; 0x46; 0x54; 1; 2]) opt_list = [EvNotMPFS].
Proof.
  assert (H : py_slice (mk [0x4d; 0x50; 0x46; 0x54; 1; 2]) 0 4 <> mpfs_sig)
    by (vm_compute; discriminate).
  split; [exact H|].
  exact (proj1 (main_bad_signature no_gzip opt_list _ H)).
Defined.

(** C4 (corrected), counterexample: the 4-byte buffer "MPFS" is not
    rejected cleanly: [fs[4]] raises IndexError out of [main]. *)
Lemma main_MPFS_only_raises :
  main no_gzip mpfs_sig opt_list = [EvRaised IndexError].
Proof. vm_compute. reflexivity. Qed.

(** C4 (corrected): on a buffer shorter than 8 bytes, [main] reports
    "not a MPFS filesystem" (return 2) when the buffer does not start with
    "MPFS" (in particular whenever it is shorter than 4 bytes); a buffer of
    4 or 5 bytes starting with "MPFS" makes [main] raise IndexError (reading
    the version bytes), one of 6 or 7 bytes makes it raise struct.error
    (unpacking the file count).  No other output is produced. *)
Theorem main_short_buffer (gunzip : bytes -> result bytes) (o : options) (fs : bytes) :
  (List.length fs < 8)%nat ->
  main gunzip fs o =
    if bytes_eqb (py_slice fs 0 4) mpfs_sig then
      if (List.length fs <=? 5)%nat then [EvRaised IndexError]
      else [EvRaised StructError]
    else [EvNotMPFS].
Proof.
  intros Hlen.
  destruct fs as [|b0 [|b1 [|b2 [|b3 [|b4 [|b5 [|b6 [|b7 rest]]]]]]]];
    simpl in Hlen; try lia;
    unfold main; destruct (bytes_eqb _ mpfs_sig) eqn:E; simpl; try reflexivity.
Qed.

(** ** The header and record tables *)

Lemma bval_range (b : byte) : 0 <= bval b < 256.
Proof. destruct b; vm_compute; split; congruence. Qed.

Lemma le_uint_nonneg (l : bytes) : 0 <= le_uint l.
Proof.
  induction l as [|b l IH]; cbn [le_uint]; [lia|]. pose proof (bval_range b). lia.
Qed.

Lemma py_slice_length (fs : bytes) (a b : Z) :
  0 <= a <= b -> b <= Z.of_nat (List.length fs) ->
  List.length (py_slice fs a b) = Z.to_nat (b - a).
Proof.
  intros Hab Hb. unfold py_slice. rewrite length_firstn, length_skipn. lia.
Qed.

Lemma py_slice_sub (fs : bytes) (o w a b : Z) :
  0 <= o -> 0 <= a <= b -> b <= w ->
  py_slice (py_slice fs o (o + w)) a b = py_slice fs (o + a) (o + b).
Proof.
  intros Ho Hab Hbw. unfold py_slice.
  rewrite skipn_firstn_comm, firstn_firstn, skipn_skipn.
  f_equal; [lia|]. f_equal. lia.
Qed.

(** The record layout of the spec: little-endian fields StringPtr, DataPtr,
    Len, Timestamp, Microtime (4 bytes each) and Flags (2 bytes) from [o]. *)
Definition spec_record_at (fs : bytes) (o : Z) : FileRecord :=
  mkFileRecord (le_uint (py_slice fs o (o + 4))) (le_uint (py_slice fs (o + 4) (o + 8)))
               (le_uint (py_slice fs (o + 8) (o + 12))) (le_uint (py_slice fs (o + 12) (o + 16)))
               (le_uint (py_slice fs (o + 16) (o + 20))) (le_uint (py_slice fs (o + 20) (o + 22))).

Lemma unpack_record_at (fs : bytes) (o : Z) :
  0 <= o -> o + 22 <= Z.of_nat (List.length fs) ->
  unpack_record (py_slice fs o (o + 22)) = Ok (spec_record_at fs o).
Proof.
  intros Ho Hlen. unfold unpack_record.
  rewrite py_slice_length by lia. replace (o + 22 - o) with 22 by lia. simpl.
  unfold spec_record_at.
  rewrite !py_slice_sub by lia. rewrite Z.add_0_r. reflexivity.
Qed.

Lemma read_hashes_ok (fs : bytes) (k : nat) (off : Z) :
  0 <= off -> off + 2 * Z.of_nat k <= Z.of_nat (List.length fs) ->
  read_hashes fs k off =
    Ok (map (fun j => le_uint (py_slice fs (off + 2 * Z.of_nat j) (off + 2 * Z.of_nat j + 2)))
            (seq 0 k), off + 2 * Z.of_nat k).
Proof.
  revert off. induction k as [|k IH]; intros off Hoff Hlen; simpl.
  - rewrite Z.add_0_r. reflexivity.
  - unfold unpack_H. rewrite py_slice_length by lia.
    replace (off + 2 - off) with 2 by lia. simpl.
    rewrite IH by lia. cbn [fst snd bind]. rewrite Z.add_0_r.
    replace (off + 2 + 2 * Z.of_nat k) with (off + 2 * Z.of_nat (S k)) by lia.
    assert (Hm : map (fun j => le_uint (py_slice fs ((off + 2) + 2 * Z.of_nat j) ((off + 2) + 2 * Z.of_nat j + 2))) (seq 0 k)
                 = map (fun j => le_uint (py_slice fs (off + 2 * Z.of_nat j) (off + 2 * Z.of_nat j + 2))) (seq 1 k)).
    { rewrite <- seq_shift, map_map. apply map_ext. intros j.
      replace (off + 2 + 2 * Z.of_nat j) with (off + 2 * Z.of_nat (S j)) by lia.
      reflexivity. }
    rewrite Hm. reflexivity.
Qed.

Lemma read_records_ok (fs : bytes) (k : nat) (off : Z) :
  0 <= off -> off + 22 * Z.of_nat k <= Z.of_nat (List.length fs) ->
  read_records fs k off =
    Ok (map (fun j => spec_record_at fs (off + 22 * Z.of_nat j)) (seq 0 k),
        off + 22 * Z.of_nat k).
Proof.
  revert off. induction k as [|k IH]; intros off Hoff Hlen; simpl.
  - rewrite Z.add_0_r. reflexivity.
  - rewrite unpack_record_at by lia. simpl.
    rewrite IH by lia. cbn [fst snd bind]. rewrite Z.add_0_r.
    replace (off + 22 + 22 * Z.of_nat k) with (off + 22 * Z.of_nat (S k)) by lia.
    assert (Hm : map (fun j => spec_record_at fs ((off + 22) + 22 * Z.of_nat j)) (seq 0 k)
                 = map (fun j => spec_record_at fs (off + 22 * Z.of_nat j)) (seq 1 k)).
    { rewrite <- seq_shift, map_map. apply map_ext. intros j.
      replace (off + 22 + 22 * Z.of_nat j) with (off + 22 * Z.of_nat (S j)) by lia.
      reflexivity. }
    rewrite Hm. reflexivity.
Qed.

(** C9: for an image of at least [8 + 2N + 22N] bytes, where N is the
    little-endian u16 at offset 6, the tables parse into exactly N name
    hashes (little-endian u16 values at [8 + 2j]) and exactly N records
    (the 22-byte little-endian layout StringPtr, DataPtr, Len, Timestamp,
    Microtime, Flags at [8 + 2N + 22j]), and the table region ends at
    [8 + 2N + 22N]. *)
Theorem parse_tables_layout (fs : bytes) :
  let n := le_uint (py_slice fs 6 8) in
  8 <= Z.of_nat (List.length fs) ->
  8 + 2 * n + 22 * n <= Z.of_nat (List.length fs) ->
  exists t, parse_tables fs = Ok t /\
    file_count t = n /\
    Z.of_nat (List.length (name_hash t)) = n /\
    Z.of_nat (List.length (record t)) = n /\
    name_hash t = map (fun j => le_uint (py_slice fs (8 + 2 * Z.of_nat j) (8 + 2 * Z.of_nat j + 2)))
                      (seq 0 (Z.to_nat n)) /\
    record t = map (fun j => spec_record_at fs (8 + 2 * n + 22 * Z.of_nat j))
                   (seq 0 (Z.to_nat n)) /\
    table_end t = 8 + 2 * n + 22 * n.
Proof.
  intros n H8 Hlen.
  assert (Hn : 0 <= n) by apply le_uint_nonneg.
  assert (Hx : forall k, 0 <= k < 6 -> exists v, py_index fs k = Ok v).
  { intros k Hk. unfold py_index.
    destruct (Z.ltb_spec k 0); [lia|].
    destruct (Z.ltb_spec k 0); [lia|].
    destruct (Z.leb_spec (Z.of_nat (List.length fs)) k); [lia|]. simpl.
    destruct (nth_error fs (Z.to_nat k)) eqn:E; [eexists; reflexivity|].
    apply nth_error_None in E. lia. }
  destruct (Hx 4 ltac:(lia)) as [hi Hhi]. destruct (Hx 5 ltac:(lia)) as [lo Hlo].
  unfold parse_tables. rewrite Hhi, Hlo. cbn [bind].
  unfold unpack_H. rewrite py_slice_length by lia.
  change (Z.to_nat (8 - 6)) with 2%nat. cbn [Nat.eqb bind]. fold n.
  rewrite read_hashes_ok by lia. cbn [bind fst snd].
  rewrite Z2Nat.id by exact Hn.
  rewrite read_records_ok by (rewrite ?Z2Nat.id; lia). cbn [bind fst snd].
  eexists. split; [reflexivity|]. cbn [file_count name_hash record table_end].
  rewrite !length_map, !length_seq, !Z2Nat.id by exact Hn.
  repeat split; try lia.
Qed.

(** Test: [NVM_MEDIA_DATA] holds 2 files. *)
Example parse_tables_nvm :
  option_map file_count (match parse_tables NVM_MEDIA_DATA with Ok t => Some t | Err _ => None end) = Some 2.
Proof. vm_compute. reflexivity. Qed.

Lemma parse_tables_layout_witness :
  8 <= Z.of_nat (List.length NVM_MEDIA_DATA) /\
  exists t, parse_tables NVM_MEDIA_DATA = Ok t /\ file_count t = 2 /\ table_end t = 56.
Proof.
  split; [vm_compute; discriminate|].
  destruct (parse_tables_layout NVM_MEDIA_DATA) as (t & Ht & Hn & _ & _ & _ & _ & He);
    [vm_compute; discriminate | vm_compute; discriminate|].
  exists t. split; [exact Ht|]. split; [exact Hn|]. rewrite He. reflexivity.
Defined.

(** Little-endian encodings, to write test images. *)
Definition u16 (z : Z) : list Z := [z mod 256; z / 256 mod 256].
Definition u32 (z : Z) : list Z :=
  [z mod 256; z / 256 mod 256; z / 65536 mod 256; z / 16777216 mod 256].

(** A 22-byte record. *)
Definition rec_bytes (sp dp len flags : Z) : list Z :=
  u32 sp ++ u32 dp ++ u32 len ++ u32 0 ++ u32 0 ++ u16 flags.

(** One record "A", has-index, and nothing after it: its companion is
    missing. *)
Definition img_dangling : bytes := mk (
  [0x4d; 0x50; 0x46; 0x53; 2; 1] ++ u16 1 ++ u16 0 ++
  rec_bytes 32 34 1 2 ++ [65; 0; 120]).

(** Record "A" is gzip'd and has an index (Flags = 3); its companion
    follows, with an empty name and an empty index. *)
Definition img_zipped_index : bytes := mk (
  [0x4d; 0x50; 0x46; 0x53; 2; 1] ++ u16 2 ++ u16 0 ++ u16 0 ++
  rec_bytes 56 59 2 3 ++ rec_bytes 58 61 0 0 ++ [65; 0; 0; 120; 121]).

(** Record "A" has an index; its companion has Len = 4 (not a multiple of
    8).  The companion's only pair starts at 62: offset 0 (bytes 62-65),
    variable id [id] (bytes 66-69, past the companion's end 66).  The
    variable text "~a~" is at 59. *)
Definition img_short_index (id : Z) : bytes := mk (
  [0x4d; 0x50; 0x46; 0x53; 2; 1] ++ u16 2 ++ u16 0 ++ u16 0 ++
  rec_bytes 56 59 3 2 ++ rec_bytes 58 62 4 0 ++
  [65; 0; 0; 126; 97; 126] ++ u32 0 ++ u32 id).

Definition opt_extract : options := mkOptions false true false false.

(** ** find_variables *)

Lemma scan_pairs_app (fs : bytes) (d : Z) (l1 l2 : list Z) (m : dict) :
  scan_pairs fs d (l1 ++ l2) m =
    match scan_pairs fs d l1 m with Cont m' => scan_pairs fs d l2 m' | o => o end.
Proof.
  revert m. induction l1 as [|i l1 IH]; intros m; simpl; [reflexivity|].
  destruct (unpack_II _) as [[off id]|e]; [|reflexivity].
  destruct (get_var _ _) as [name|e]; [|reflexivity].
  destruct (dict_get m id) as [n|]; [|apply IH].
  destruct (pystr_eqb n name); [apply IH | reflexivity].
Qed.

Lemma walk_app (fs : bytes) (rs1 rs2 : list FileRecord) (vars m : dict) :
  walk fs rs1 vars = Cont m -> walk fs (rs1 ++ rs2) vars = walk fs rs2 m.
Proof.
  remember (List.length rs1) as len eqn:Hlen.
  revert rs1 vars Hlen. induction len as [len IH] using lt_wf_ind.
  intros rs1 vars Hlen Hw.
  destruct rs1 as [|r rs1']; simpl in *.
  - congruence.
  - destruct (has_index r) eqn:Hr; simpl in *.
    + destruct rs1' as [|v rs1'']; [discriminate|]. simpl.
      destruct (scan_pairs fs (DataPtr r) (companion_range v) vars) eqn:Hs;
        try discriminate.
      apply (IH (List.length rs1'')); [simpl in Hlen; lia | reflexivity | exact Hw].
    + apply (IH (List.length rs1')); [lia | reflexivity | exact Hw].
Qed.

(** C2 (corrected), counterexample: the image [img_dangling] has one
    record, a has-index record with no companion after it.  [main] does
    not fail: it prints the header and the listing, and [find_variables]
    returns an empty dict. *)
Lemma dangling_index_decodes :
  main no_gzip img_dangling opt_list =
    [EvHeader 2 1 1 1 0; EvList 0 (mkFileRecord 32 34 1 0 0 2) (lit "A")] /\
  find_variables img_dangling [mkFileRecord 32 34 1 0 0 2] = Ok [].
Proof. split; vm_compute; reflexivity. Qed.

(** C2 (corrected): when the walk reaches a has-index record [r] that is
    the last record, with the dict [m] collected from the records before
    it, there is no error: [find_variables] returns [m] (the StopIteration
    of [next(it)] is caught), and [main] goes on to print the header,
    counting the [m] variables, followed by the listing of the per-record
    loop over all the records. *)
Theorem find_variables_dangling (gunzip : bytes -> result bytes) (fs : bytes)
    (o : options) (t : tables) (rs : list FileRecord) (r : FileRecord) (m : dict) :
  bytes_eqb (py_slice fs 0 4) mpfs_sig = true ->
  parse_tables fs = Ok t ->
  record t = rs ++ [r] ->
  walk fs rs [] = Cont m -> has_index r = true ->
  find_variables fs (record t) = Ok m /\
  exists tail,
    main gunzip fs o =
      EvHeader (ver_hi t) (ver_lo t) (file_count t)
        (Z.of_nat (List.length (filter has_index (record t))))
        (Z.of_nat (List.length m))
      :: fst (pass gunzip fs o 0 (Running None) (record t)) ++ tail.
Proof.
  intros Hsig Ht Hrec Hw Hr.
  assert (Hwalk : walk fs (record t) [] = Dangling m).
  { rewrite Hrec, (walk_app fs rs [r] [] m Hw). simpl. rewrite Hr. reflexivity. }
  split; [unfold find_variables; rewrite Hwalk; reflexivity|].
  unfold main. rewrite Hsig, Ht. cbn [negb]. rewrite Hwalk.
  destruct (pass gunzip fs o 0 (Running None) (record t)) as [evs st].
  eexists. reflexivity.
Qed.

(** Records "A" (has-index, its companion holding one pair: variable 5
    named "a") and "B" (has-index, the last record, no companion). *)
Definition img_dangling_after : bytes := mk (
  [0x4d; 0x50; 0x46; 0x53; 2; 1] ++ u16 3 ++ u16 0 ++ u16 0 ++ u16 0 ++
  rec_bytes 80 85 3 2 ++ rec_bytes 82 88 8 0 ++ rec_bytes 83 85 0 2 ++
  [65; 0; 0; 66; 0; 126; 97; 126] ++ u32 0 ++ u32 5).

Lemma find_variables_dangling_witness :
  find_variables img_dangling_after
    [mkFileRecord 80 85 3 0 0 2; mkFileRecord 82 88 8 0 0 0; mkFileRecord 83 85 0 0 0 2]
    = Ok [(5, lit "a")] /\
  main no_gzip img_dangling_after opt_list =
    [EvHeader 2 1 3 2 1;
     EvList 0 (mkFileRecord 80 85 3 0 0 2) (lit "A");
     EvList 2 (mkFileRecord 83 85 0 0 0 2) (lit "B")].
Proof.
  pose (t := match parse_tables img_dangling_after with
             | Ok t => t | Err _ => mkTables 0 0 0 [] [] 0 end).
  assert (Ht : parse_tables img_dangling_after = Ok t) by (vm_compute; reflexivity).
  assert (Hrec : record t = [mkFileRecord 80 85 3 0 0 2; mkFileRecord 82 88 8 0 0 0]
                            ++ [mkFileRecord 83 85 0 0 0 2])
    by (vm_compute; reflexivity).
  destruct (find_variables_dangling no_gzip img_dangling_after opt_list t
              [mkFileRecord 80 85 3 0 0 2; mkFileRecord 82 88 8 0 0 0]
              (mkFileRecord 83 85 0 0 0 2) [(5, lit "a")]
              ltac:(vm_compute; reflexivity) Ht Hrec
              ltac:(vm_compute; reflexivity) eq_refl) as [Hf [tail Hm]].
  split; [rewrite Hrec in Hf; exact Hf|].
  rewrite Hm. vm_compute in Hm.
  assert (Htail : tail = []) by (destruct tail; [reflexivity | discriminate Hm]).
  rewrite Htail. vm_compute. reflexivity.
Defined.

(** C6: when the walk has reached a has-index record [r] with the dict [m]
    (its companion [v] follows), and the pair at [i] of [v] gives a variable
    id already mapped, after the earlier pairs [pre], to [n]:
    - if [n] differs from the name just resolved, the walk stops there
      ("Bad index variable") and [find_variables] returns the dict [m1]
      collected so far;
    - if it is the same name, the walk goes on with the next pairs. *)
Theorem find_variables_inconsistent (fs : bytes) (rs rest : list FileRecord)
    (r v : FileRecord) (m m1 : dict) (pre post : list Z) (i off id : Z)
    (name n : pystr) :
  walk fs rs [] = Cont m ->
  has_index r = true ->
  companion_range v = pre ++ i :: post ->
  scan_pairs fs (DataPtr r) pre m = Cont m1 ->
  unpack_II (py_slice fs i (i + 8)) = Ok (off, id) ->
  get_var fs (DataPtr r + off) = Ok name ->
  dict_get m1 id = Some n ->
  (n <> name ->
     walk fs (rs ++ r :: v :: rest) [] = Conflict m1 /\
     find_variables fs (rs ++ r :: v :: rest) = Ok m1) /\
  (n = name ->
     walk fs (rs ++ r :: v :: rest) [] =
       match scan_pairs fs (DataPtr r) post m1 with
       | Cont d => walk fs rest d
       | o => o
       end).
Proof.
  intros Hw Hr Hv Hpre Hpair Hname Hget.
  assert (Hwalk : walk fs (rs ++ r :: v :: rest) [] =
            match scan_pairs fs (DataPtr r) (companion_range v) m with
            | Cont d => walk fs rest d | o => o end).
  { rewrite (walk_app fs rs _ [] m Hw). simpl. rewrite Hr. reflexivity. }
  rewrite Hv, scan_pairs_app, Hpre in Hwalk. simpl in Hwalk.
  rewrite Hpair, Hname, Hget in Hwalk.
  unfold pystr_eqb in Hwalk.
  split.
  - intros Hne. destruct (list_eq_dec Z.eq_dec n name); [contradiction|].
    unfold find_variables. rewrite Hwalk. split; reflexivity.
  - intros Heq. destruct (list_eq_dec Z.eq_dec n name); [|contradiction].
    exact Hwalk.
Qed.

(** Record "A" has an index whose companion holds two pairs with the same
    variable id 5: offset 0 ("~a~") and offset 3 ("~b~"). *)
Definition img_conflict : bytes := mk (
  [0x4d; 0x50; 0x46; 0x53; 2; 1] ++ u16 2 ++ u16 0 ++ u16 0 ++
  rec_bytes 56 59 6 2 ++ rec_bytes 58 65 16 0 ++
  [65; 0; 0; 126; 97; 126; 126; 98; 126] ++ u32 0 ++ u32 5 ++ u32 3 ++ u32 5).

Definition conflict_r : FileRecord := mkFileRecord 56 59 6 0 0 2.
Definition conflict_v : FileRecord := mkFileRecord 58 65 16 0 0 0.

Lemma find_variables_inconsistent_witness :
  find_variables img_conflict ([] ++ [conflict_r; conflict_v]) = Ok [(5, lit "a")] /\
  main no_gzip img_conflict (mkOptions false false false true) =
    [EvBadIndexVariable; EvHeader 2 1 2 1 1; EvVariable 5 (lit "a")].
Proof.
  split; [|vm_compute; reflexivity].
  refine (proj2 (proj1 (find_variables_inconsistent img_conflict [] [] conflict_r conflict_v
            [] [(5, lit "a")] [65] [] 73 3 5 (lit "b") (lit "a")
            eq_refl eq_refl eq_refl eq_refl eq_refl eq_refl eq_refl) _)).
  vm_compute. discriminate.
Defined.

(** Test: the same id with the same name twice does not stop the walk. *)
Example find_variables_same_name :
  find_variables (mk (
    [0x4d; 0x50; 0x46; 0x53; 2; 1] ++ u16 2 ++ u16 0 ++ u16 0 ++
    rec_bytes 56 59 6 2 ++ rec_bytes 58 65 16 0 ++
    [65; 0; 0; 126; 97; 126; 126; 97; 126] ++ u32 0 ++ u32 5 ++ u32 3 ++ u32 5))
    [conflict_r; conflict_v] = Ok [(5, lit "a")].
Proof. vm_compute. reflexivity. Qed.

(** C10: the record after a has-index record [r] is consumed as its
    companion whatever its name and flags: only its DataPtr and Len are
    used, and the walk resumes after it, at [rest]. *)
Theorem walk_companion_unconditional (fs : bytes) (r v : FileRecord)
    (rest : list FileRecord) (vars : dict) :
  has_index r = true ->
  walk fs (r :: v :: rest) vars =
    match scan_pairs fs (DataPtr r) (py_range (DataPtr v) (DataPtr v + Len v) 8) vars with
    | Cont d => walk fs rest d
    | o => o
    end /\
  (forall v', DataPtr v' = DataPtr v -> Len v' = Len v ->
     walk fs (r :: v' :: rest) vars = walk fs (r :: v :: rest) vars).
Proof.
  intros Hr. split.
  - simpl. rewrite Hr. reflexivity.
  - intros v' Hd Hl. simpl. rewrite Hr. unfold companion_range. rewrite Hd, Hl.
    reflexivity.
Qed.

Lemma walk_companion_unconditional_witness :
  has_index conflict_r = true /\
  walk img_conflict [conflict_r; mkFileRecord 0 65 16 0 0 3] [] =
    walk img_conflict [conflict_r; conflict_v] [].
Proof.
  split; [reflexivity|].
  exact (proj2 (walk_companion_unconditional img_conflict conflict_r conflict_v [] []
                  eq_refl) (mkFileRecord 0 65 16 0 0 3) eq_refl eq_refl).
Defined.

(** ** Reads of the companion's pairs *)

Lemma py_range_fuel_in (fuel : nat) (a b s i : Z) :
  0 < s -> In i (py_range_fuel fuel a b s) ->
  a <= i < b /\ exists k, 0 <= k /\ i = a + s * k.
Proof.
  revert a. induction fuel as [|f IH]; intros a Hs Hin; simpl in Hin; [contradiction|].
  destruct (Z.ltb_spec a b) as [Hab|Hab]; [|contradiction].
  destruct Hin as [<-|Hin].
  - split; [lia|]. exists 0. lia.
  - destruct (IH (a + s) Hs Hin) as [Hr [k [Hk ->]]].
    split; [lia|]. exists (k + 1). lia.
Qed.

(** C5 (corrected), counterexample: the companion of [img_short_index] has
    Len = 4, so its only pair is read at [fs[62:70]], past its end 66: two
    images that differ only in bytes 66-69 give different variables. *)
Lemma companion_read_past_end :
  companion_range (mkFileRecord 58 62 4 0 0 0) = [62] /\
  find_variables (img_short_index 7)
    [mkFileRecord 56 59 3 0 0 2; mkFileRecord 58 62 4 0 0 0] = Ok [(7, lit "a")] /\
  find_variables (img_short_index 9)
    [mkFileRecord 56 59 3 0 0 2; mkFileRecord 58 62 4 0 0 0] = Ok [(9, lit "a")] /\
  firstn 66 (img_short_index 7) = firstn 66 (img_short_index 9).
Proof. repeat split; vm_compute; reflexivity. Qed.

(** C5 (corrected): each pair of a companion [v] is read as the 8 bytes
    [fs[i:i+8]] for [i] in [range(v.DataPtr, v.DataPtr + v.Len, 8)]: the
    reads start at or after [v.DataPtr] and stay below [v.DataPtr] plus
    [v.Len] rounded up to a multiple of 8; when [v.Len] is a multiple of 8
    they stay below [v.DataPtr + v.Len]. *)
Theorem companion_reads_bounded (v : FileRecord) (i : Z) :
  In i (companion_range v) ->
  DataPtr v <= i /\ i + 8 <= DataPtr v + 8 * ((Len v + 7) / 8) /\
  (Len v mod 8 = 0 -> i + 8 <= DataPtr v + Len v).
Proof.
  intros Hin. unfold companion_range, py_range in Hin.
  apply py_range_fuel_in in Hin; [|lia].
  destruct Hin as [Hr [k [Hk ->]]].
  split; [lia|]. split.
  - assert (k + 1 <= (Len v + 7) / 8) by (apply Z.div_le_lower_bound; lia). lia.
  - intros Hm. pose proof (Z.div_mod (Len v) 8 ltac:(lia)) as Hd. rewrite Hm in Hd.
    assert (k + 1 <= Len v / 8) by lia. lia.
Qed.

Lemma companion_reads_bounded_witness :
  In 62 (companion_range (mkFileRecord 58 62 4 0 0 0)) /\ 62 + 8 <= 62 + 8 * ((4 + 7) / 8).
Proof.
  assert (H : In 62 (companion_range (mkFileRecord 58 62 4 0 0 0))) by (left; reflexivity).
  split; [exact H|].
  exact (proj1 (proj2 (companion_reads_bounded (mkFileRecord 58 62 4 0 0 0) 62 H))).
Defined.

(** ** The per-record pass of main *)

Section Pass.

Variable gunzip : bytes -> result bytes.

Lemma pass_not_running (fs : bytes) (o : options) (i : Z) (st : pstate)
    (rs : list FileRecord) :
  (forall nx, st <> Running nx) -> pass gunzip fs o i st rs = ([], st).
Proof.
  intros H. destruct st as [nx| |]; [exfalso; exact (H nx eq_refl)| |];
    destruct rs; reflexivity.
Qed.

Lemma pass_app (fs : bytes) (o : options) (i : Z) (st : pstate)
    (rs1 rs2 : list FileRecord) :
  pass gunzip fs o i st (rs1 ++ rs2) =
    let (e1, st1) := pass gunzip fs o i st rs1 in
    let (e2, st2) := pass gunzip fs o (i + Z.of_nat (List.length rs1)) st1 rs2 in
    (e1 ++ e2, st2).
Proof.
  revert i st. induction rs1 as [|r rs1 IH]; intros i st.
  - cbn [app List.length]. rewrite Z.add_0_r.
    replace (pass gunzip fs o i st []) with ([] : list event, st)
      by (destruct st; reflexivity).
    destruct (pass gunzip fs o i st rs2). reflexivity.
  - destruct st as [nx| |].
    + cbn [app pass]. destruct (process_record gunzip fs o i nx r) as [evs st'].
      rewrite IH. destruct (pass gunzip fs o (i + 1) st' rs1) as [e1 st1].
      cbn [List.length]. replace (i + 1 + Z.of_nat (List.length rs1))
        with (i + Z.of_nat (S (List.length rs1))) by lia.
      destruct (pass gunzip fs o (i + Z.of_nat (S (List.length rs1))) st1 rs2).
      rewrite app_assoc. reflexivity.
    + rewrite !pass_not_running by congruence. reflexivity.
    + rewrite !pass_not_running by congruence. reflexivity.
Qed.

Lemma process_record_next (fs : bytes) (o : options) (i : Z)
    (nx : option pystr) (r : FileRecord) (evs : list event) (nx' : option pystr) :
  process_record gunzip fs o i nx r = (evs, Running nx') ->
  has_index r = true -> exists s, nx' = Some s.
Proof.
  intros H Hr. unfold process_record in H.
  destruct (py_index fs (StringPtr r)) as [b|e]; [|discriminate].
  destruct nx as [prev|].
  - destruct (negb (b =? 0)); [discriminate|].
    rewrite Hr in H.
    destruct (py_not (Some prev) && extract o);
      [destruct (extract_payload gunzip fs r)|]; inversion H; eexists; reflexivity.
  - destruct (b =? 0); [discriminate|].
    destruct (get_string fs (StringPtr r) false); [|discriminate].
    rewrite Hr in H.
    destruct (py_not None && extract o);
      [destruct (extract_payload gunzip fs r)|]; inversion H; eexists; reflexivity.
Qed.

End Pass.

(** C7: in the per-record pass of [main], when the pass has processed the
    records [pre ++ [r]] without leaving the loop, [r] has the has-index
    flag, and the next record [v] has a non-empty name, the pass emits the
    events of [pre ++ [r]], then "Bad file entry: should be an index" for
    [v], and leaves the loop ([break]): no later record is processed. *)
Theorem pass_bad_index_entry (gunzip : bytes -> result bytes) (fs : bytes)
    (o : options) (pre post : list FileRecord) (r v : FileRecord)
    (tr : list event) (nx : option pystr) (b : Z) :
  pass gunzip fs o 0 (Running None) (pre ++ [r]) = (tr, Running nx) ->
  has_index r = true ->
  py_index fs (StringPtr v) = Ok b -> b <> 0 ->
  pass gunzip fs o 0 (Running None) (pre ++ r :: v :: post) =
    (tr ++ [EvBadEntryIndex (Z.of_nat (List.length pre) + 1)], Broke).
Proof.
  intros Hp Hr Hb Hnz.
  assert (Hnx : exists s, nx = Some s).
  { rewrite pass_app in Hp.
    destruct (pass gunzip fs o 0 (Running None) pre) as [e1 st1].
    destruct st1 as [nx1| |].
    - cbn [pass] in Hp.
      destruct (process_record gunzip fs o (0 + Z.of_nat (List.length pre)) nx1 r)
        as [evs st'] eqn:Hpr.
      destruct st' as [nx'| |]; inversion Hp; subst.
      exact (process_record_next gunzip _ _ _ _ _ _ _ Hpr Hr).
    - rewrite pass_not_running in Hp by congruence. inversion Hp.
    - rewrite pass_not_running in Hp by congruence. inversion Hp. }
  destruct Hnx as [s ->].
  replace (pre ++ r :: v :: post) with ((pre ++ [r]) ++ v :: post)
    by (rewrite <- app_assoc; reflexivity).
  rewrite pass_app, Hp. cbn [pass].
  unfold process_record at 1. rewrite Hb.
  destruct (Z.eqb_spec b 0) as [E|_]; [contradiction|]. cbn [negb].
  rewrite pass_not_running by congruence.
  rewrite length_app. cbn [List.length].
  replace (0 + Z.of_nat (List.length pre + 1)) with (Z.of_nat (List.length pre) + 1) by lia.
  rewrite app_nil_r. reflexivity.
Qed.

Definition opt_none : options := mkOptions false false false false.

Lemma pass_bad_index_entry_witness :
  pass no_gzip img_conflict opt_none 0 (Running None) ([] ++ [conflict_r]) =
    ([], Running (Some (lit "A"))) /\
  pass no_gzip img_conflict opt_none 0 (Running None)
    ([] ++ conflict_r :: mkFileRecord 56 65 16 0 0 0 :: [conflict_r]) =
    ([] ++ [EvBadEntryIndex 1], Broke).
Proof.
  assert (Hp : pass no_gzip img_conflict opt_none 0 (Running None) ([] ++ [conflict_r]) =
               ([], Running (Some (lit "A")))) by (vm_compute; reflexivity).
  split; [exact Hp|].
  exact (pass_bad_index_entry no_gzip img_conflict opt_none [] [conflict_r] conflict_r
           (mkFileRecord 56 65 16 0 0 0) [] (Some (lit "A")) 65
           Hp eq_refl eq_refl ltac:(discriminate)).
Defined.

(** C1 (code bug): [img_zipped_index] holds record "A" with Flags = 3
    (ISZIPPED and HASINDEX), which the listing reports as zipped.
    Extraction tests [r.Flags == 1] instead of the ISZIPPED bit, so the raw
    slice [fs[59:61]] is written, never passed to [gzip.decompress],
    whatever that routine does. *)
Theorem extract_zipped_with_index_raw (gunzip : bytes -> result bytes) :
  is_zipped (mkFileRecord 56 59 2 0 0 3) = true /\
  extract_payload gunzip img_zipped_index (mkFileRecord 56 59 2 0 0 3) =
    Ok (py_slice img_zipped_index 59 61) /\
  main gunzip img_zipped_index opt_extract =
    [EvHeader 2 1 2 1 0; EvExtracted (lit "A") (mk [120; 121])].
Proof. split; [|split]; vm_compute; reflexivity. Qed.

(** "MPFS" followed by the two version bytes only. *)
Definition img_header6 : bytes := mk [0x4d; 0x50; 0x46; 0x53; 2; 1].

Lemma main_short_buffer_witness :
  (List.length img_header6 < 8)%nat /\
  main no_gzip img_header6 opt_list = [EvRaised StructError].
Proof.
  assert (H : (List.length img_header6 < 8)%nat)
    by (vm_compute; lia).
  split; [exact H|].
  rewrite (main_short_buffer no_gzip opt_list img_header6 H). vm_compute. reflexivity.
Defined.

(** ** Further properties of the decoder *)

Lemma py_index_app (pre l : bytes) (b : byte) :
  py_index (pre ++ b :: l) (Z.of_nat (List.length pre)) = Ok (bval b).
Proof.
  unfold py_index. rewrite length_app. cbn [List.length].
  destruct (Z.ltb_spec (Z.of_nat (List.length pre)) 0); [lia|].
  destruct (Z.ltb_spec (Z.of_nat (List.length pre)) 0); [lia|].
  destruct (Z.leb_spec (Z.of_nat (List.length pre + S (List.length l)))
                       (Z.of_nat (List.length pre))); [lia|]. cbn [orb].
  rewrite Nat2Z.id, nth_error_app2, Nat.sub_diag by lia. reflexivity.
Qed.

Lemma py_drop_app (pre l : bytes) :
  py_drop (pre ++ l) (Z.of_nat (List.length pre)) = l.
Proof.
  unfold py_drop. rewrite Nat2Z.id, skipn_app, skipn_all, Nat.sub_diag. reflexivity.
Qed.

Lemma py_index_out (fs : bytes) (k : Z) :
  Z.of_nat (List.length fs) <= k -> py_index fs k = Err IndexError.
Proof.
  intros H. unfold py_index.
  destruct (Z.ltb_spec k 0); [lia|].
  destruct (Z.leb_spec (Z.of_nat (List.length fs)) k); [|lia].
  rewrite orb_true_r. reflexivity.
Qed.

Lemma take_var_no_tilde (name post : bytes) :
  (forall b, In b name -> bval b <> 126) ->
  take_var (name ++ x7e :: post) = map bval name.
Proof.
  induction name as [|b name IH]; intros H; simpl; [reflexivity|].
  destruct (Z.eqb_spec (bval b) 126) as [E|E].
  - exfalso. exact (H b (or_introl eq_refl) E).
  - rewrite IH; [reflexivity|]. intros c Hc. apply H. right. exact Hc.
Qed.

(** [get_var] reads back a variable written "~name~" at [ptr]: the name
    bytes, each as its code point, when the name holds no '~'. *)
Theorem get_var_roundtrip (pre name post : bytes) :
  (forall b, In b name -> bval b <> 126) ->
  get_var (pre ++ x7e :: name ++ x7e :: post) (Z.of_nat (List.length pre)) =
    Ok (map bval name).
Proof.
  intros H. unfold get_var. rewrite py_index_app. cbn [bind bval].
  replace (Z.of_nat (List.length pre) + 1) with (Z.of_nat (List.length (pre ++ [x7e])))
    by (rewrite length_app; simpl; lia).
  replace (pre ++ x7e :: name ++ x7e :: post) with ((pre ++ [x7e]) ++ name ++ x7e :: post)
    by (rewrite <- app_assoc; reflexivity).
  rewrite py_drop_app, take_var_no_tilde by exact H. reflexivity.
Qed.

Lemma get_var_roundtrip_witness :
  (forall b, In b [x61; x62] -> bval b <> 126) /\
  get_var ([x00] ++ x7e :: [x61; x62] ++ x7e :: []) 1 = Ok [97; 98].
Proof.
  assert (H : forall b, In b [x61; x62] -> bval b <> 126)
    by (intros b [<-|[<-|[]]]; vm_compute; discriminate).
  split; [exact H|]. exact (get_var_roundtrip [x00] [x61; x62] [] H).
Defined.

(** Both name readers raise IndexError for a pointer at or past the end of
    the image (e.g. a corrupt StringPtr or DataPtr + offset). *)
Theorem readers_out_of_range (fs : bytes) (ptr : Z) (hex_name : bool) :
  Z.of_nat (List.length fs) <= ptr ->
  get_string fs ptr hex_name = Err IndexError /\ get_var fs ptr = Err IndexError.
Proof.
  intros H. unfold get_string, get_var. rewrite py_index_out by exact H.
  split; reflexivity.
Qed.

Lemma readers_out_of_range_witness :
  Z.of_nat (List.length NVM_MEDIA_DATA) <= 95 /\
  get_string NVM_MEDIA_DATA 95 false = Err IndexError /\ get_var NVM_MEDIA_DATA 95 = Err IndexError.
Proof.
  assert (H : Z.of_nat (List.length NVM_MEDIA_DATA) <= 95) by (vm_compute; discriminate).
  split; [exact H|]. exact (readers_out_of_range NVM_MEDIA_DATA 95 false H).
Defined.

Lemma render_name_printable (name post : bytes) :
  (forall b, In b name -> 32 <= bval b) ->
  render_name (name ++ x00 :: post) = map bval name.
Proof.
  induction name as [|b name IH]; intros H; simpl; [reflexivity|].
  pose proof (H b (or_introl eq_refl)) as Hb.
  destruct (Z.eqb_spec (bval b) 0); [lia|].
  unfold render_char. destruct (Z.ltb_spec (bval b) 32); [lia|].
  rewrite IH; [reflexivity|]. intros c Hc. apply H. right. exact Hc.
Qed.

(** [get_string] reads back a non-empty name of printable bytes (no
    control character) terminated by 0: the name bytes, as code points. *)
Theorem get_string_roundtrip (pre name post : bytes) (hex_name : bool) :
  name <> [] -> (forall b, In b name -> 32 <= bval b) ->
  get_string (pre ++ name ++ x00 :: post) (Z.of_nat (List.length pre)) hex_name =
    Ok (map bval name).
Proof.
  intros Hne H. destruct name as [|b name']; [contradiction|].
  unfold get_string.
  change ((b :: name') ++ x00 :: post) with (b :: (name' ++ x00 :: post)).
  rewrite py_index_app. cbn [bind].
  pose proof (H b (or_introl eq_refl)).
  destruct (Z.eqb_spec (bval b) 0); [lia|].
  rewrite py_drop_app.
  change (b :: (name' ++ x00 :: post)) with ((b :: name') ++ x00 :: post).
  rewrite (render_name_printable (b :: name') post H). reflexivity.
Qed.

Lemma get_string_roundtrip_witness :
  [x41; x42] <> [] /\ (forall b, In b [x41; x42] -> 32 <= bval b) /\
  get_string ([] ++ [x41; x42] ++ x00 :: []) 0 false = Ok [65; 66].
Proof.
  assert (H : forall b, In b [x41; x42] -> 32 <= bval b)
    by (intros b [<-|[<-|[]]]; vm_compute; discriminate).
  split; [discriminate|]. split; [exact H|].
  exact (get_string_roundtrip [] [x41; x42] [] false ltac:(discriminate) H).
Defined.

Lemma digits_fuel_chars (fuel : nat) (base n : Z) (acc : pystr) :
  0 < base <= 16 -> Forall (fun c => 48 <= c <= 70) acc ->
  Forall (fun c => 48 <= c <= 70) (digits_fuel fuel base n acc).
Proof.
  revert n acc. induction fuel as [|f IH]; intros n acc Hb Hacc; cbn [digits_fuel]; [exact Hacc|].
  assert (Hd : 48 <= digit_char (n mod base) <= 70).
  { pose proof (Z.mod_pos_bound n base ltac:(lia)). unfold digit_char.
    destruct (Z.ltb_spec (n mod base) 10); lia. }
  destruct (n / base =? 0); [constructor; assumption|].
  apply IH; [exact Hb|]. constructor; assumption.
Qed.

Lemma digits_chars (base n : Z) :
  0 < base <= 16 -> Forall (fun c => 48 <= c <= 70) (digits base n).
Proof. intros Hb. apply digits_fuel_chars; [exact Hb | constructor]. Qed.

Lemma render_char_printable (i : Z) :
  0 <= i -> Forall (fun c => 32 <= c) (render_char i).
Proof.
  intros Hi. unfold render_char. destruct (Z.ltb_spec i 32).
  - apply Forall_app. split; [repeat constructor; discriminate|].
    apply Forall_app. split; [|repeat constructor; discriminate].
    eapply Forall_impl; [|apply digits_chars; lia]. intros c Hc. simpl in Hc. lia.
  - repeat constructor. lia.
Qed.

(** [get_string] never returns a control character: every code point of
    a name it returns is at least 32 (control bytes are rendered "<N>"). *)
Theorem get_string_printable (fs : bytes) (ptr : Z) (hex_name : bool) (s : pystr) :
  get_string fs ptr hex_name = Ok s -> Forall (fun c => 32 <= c) s.
Proof.
  unfold get_string. destruct (py_index fs ptr) as [b|e]; cbn [bind]; [|discriminate].
  destruct (b =? 0); intros H; inversion H; subst; clear H.
  - destruct hex_name.
    + unfold hex06. apply Forall_app. split.
      * apply Forall_forall. intros c Hc. apply repeat_spec in Hc. lia.
      * eapply Forall_impl; [|apply digits_chars; lia]. intros c Hc. simpl in Hc. lia.
    + vm_compute. repeat constructor; discriminate.
  - generalize (py_drop fs ptr). intros l. induction l as [|x l IH]; simpl; [constructor|].
    destruct (bval x =? 0); [constructor|].
    apply Forall_app. split; [|exact IH].
    apply render_char_printable. pose proof (bval_range x). lia.
Qed.

Lemma get_string_printable_witness :
  get_string (mk [7; 65; 0]) 0 false = Ok (lit "<7>A") /\
  Forall (fun c => 32 <= c) (lit "<7>A").
Proof.
  assert (H : get_string (mk [7; 65; 0]) 0 false = Ok (lit "<7>A")) by (vm_compute; reflexivity).
  split; [exact H|]. exact (get_string_printable _ _ _ _ H).
Defined.

(** ** The variables dict and the walk *)

Lemma dict_get_None_notin (d : dict) (k : Z) :
  dict_get d k = None -> ~ In k (map fst d).
Proof.
  induction d as [|[k' v'] d IH]; simpl; [auto|].
  destruct (Z.eqb_spec k k'); [discriminate|]. intros H [E|Hin]; [congruence|].
  exact (IH H Hin).
Qed.

(** [d[k] = v] then [d[k]] gives [v]; other keys are unchanged; a new key
    is appended at the end (dicts keep insertion order). *)
Theorem dict_set_get (d : dict) (k k' : Z) (v : pystr) :
  dict_get (dict_set d k v) k = Some v /\
  (k' <> k -> dict_get (dict_set d k v) k' = dict_get d k') /\
  (dict_get d k = None -> dict_set d k v = d ++ [(k, v)]).
Proof.
  induction d as [|[k0 v0] d IH]; simpl.
  - rewrite Z.eqb_refl. split; [reflexivity|]. split; [|reflexivity].
    intros Hne. destruct (Z.eqb_spec k' k); [contradiction | reflexivity].
  - destruct IH as (IH1 & IH2 & IH3).
    destruct (Z.eqb_spec k k0) as [->|Hne0]; simpl.
    + rewrite Z.eqb_refl. split; [reflexivity|]. split; [|discriminate].
      intros Hne. destruct (Z.eqb_spec k' k0); [contradiction | reflexivity].
    + destruct (Z.eqb_spec k k0); [contradiction|]. split; [exact IH1|]. split.
      * intros Hne. destruct (Z.eqb_spec k' k0); [reflexivity | exact (IH2 Hne)].
      * intros H. rewrite (IH3 H). reflexivity.
Qed.

Lemma dict_set_get_witness :
  (7 <> 5) /\ dict_get (dict_set [(5, lit "a")] 7 (lit "b")) 5 = Some (lit "a").
Proof.
  split; [lia|].
  exact (proj1 (proj2 (dict_set_get [(5, lit "a")] 7 5 (lit "b"))) ltac:(lia)).
Defined.

(** The dict a loop ends with, if it ends without an exception. *)
Definition loop_dict (o : loop_out) : option dict :=
  match o with Cont d | Conflict d | Dangling d => Some d | Raise _ => None end.

Definition extends (vars d : dict) : Prop :=
  exists ext, d = vars ++ ext /\ (NoDup (map fst vars) -> NoDup (map fst d)).

Lemma extends_refl (d : dict) : extends d d.
Proof. exists []. rewrite app_nil_r. split; auto. Qed.

Lemma extends_trans (a b c : dict) : extends a b -> extends b c -> extends a c.
Proof.
  intros (e1 & -> & H1) (e2 & -> & H2). exists (e1 ++ e2).
  rewrite app_assoc. split; auto.
Qed.

Lemma scan_pairs_extends (fs : bytes) (rdata : Z) (is : list Z) (vars d : dict) :
  loop_dict (scan_pairs fs rdata is vars) = Some d -> extends vars d.
Proof.
  revert vars. induction is as [|i is IH]; intros vars H; simpl in H.
  - inversion H. apply extends_refl.
  - destruct (unpack_II _) as [[off id]|e]; [|discriminate].
    destruct (get_var _ _) as [name|e]; [|discriminate].
    destruct (dict_get vars id) as [n|] eqn:Hg.
    + destruct (pystr_eqb n name); [exact (IH vars H)|].
      inversion H. apply extends_refl.
    + apply (extends_trans _ (dict_set vars id name)); [|exact (IH _ H)].
      exists [(id, name)]. rewrite (proj2 (proj2 (dict_set_get vars id id name)) Hg).
      split; [reflexivity|]. intros Hnd. rewrite map_app. simpl.
      apply NoDup_app; [exact Hnd | repeat constructor; auto |].
      intros x Hx [<-|[]]. exact (dict_get_None_notin vars id Hg Hx).
Qed.

Lemma walk_extends_aux (fs : bytes) (rs : list FileRecord) (vars d : dict) :
  loop_dict (walk fs rs vars) = Some d -> extends vars d.
Proof.
  remember (List.length rs) as len eqn:Hlen.
  revert rs vars Hlen. induction len as [len IH] using lt_wf_ind.
  intros rs vars Hlen H.
  destruct rs as [|r rs']; simpl in H.
  - inversion H. apply extends_refl.
  - destruct (has_index r); simpl in H.
    + destruct rs' as [|v rs'']; [inversion H; apply extends_refl|].
      destruct (scan_pairs fs (DataPtr r) (companion_range v) vars) as [d1|d1|d1|e] eqn:Hs;
        try (apply (scan_pairs_extends fs (DataPtr r) (companion_range v)); rewrite Hs; exact H).
      apply (extends_trans _ d1).
      * apply (scan_pairs_extends fs (DataPtr r) (companion_range v)). rewrite Hs. reflexivity.
      * exact (IH (List.length rs'') ltac:(simpl in Hlen; lia) rs'' d1 eq_refl H).
    + exact (IH (List.length rs') ltac:(simpl in Hlen; lia) rs' vars eq_refl H).
Qed.

(** The walk of [find_variables] only appends to the dict: every variable
    collected before keeps its place and name, and keys stay unique. *)
Theorem walk_extends (fs : bytes) (rs : list FileRecord) (vars d : dict) :
  loop_dict (walk fs rs vars) = Some d ->
  exists ext, d = vars ++ ext /\ (NoDup (map fst vars) -> NoDup (map fst d)).
Proof. exact (walk_extends_aux fs rs vars d). Qed.

Lemma walk_extends_witness :
  loop_dict (walk img_conflict [conflict_r; conflict_v] [(9, lit "z")]) =
    Some [(9, lit "z"); (5, lit "a")] /\
  exists ext, [(9, lit "z"); (5, lit "a")] = [(9, lit "z")] ++ ext.
Proof.
  assert (H : loop_dict (walk img_conflict [conflict_r; conflict_v] [(9, lit "z")]) =
              Some [(9, lit "z"); (5, lit "a")]) by (vm_compute; reflexivity).
  split; [exact H|].
  destruct (walk_extends _ _ _ _ H) as (ext & He & _). exists ext. exact He.
Defined.

(** With no has-index record, no image byte is read by [find_variables]
    and it returns an empty dict. *)
Theorem find_variables_no_index (fs : bytes) (rs : list FileRecord) :
  Forall (fun r => has_index r = false) rs -> find_variables fs rs = Ok [].
Proof.
  intros H. unfold find_variables.
  assert (Hw : forall vars, walk fs rs vars = Cont vars).
  { induction H as [|r rs Hr Hrs IH]; intros vars; simpl; [reflexivity|].
    rewrite Hr. apply IH. }
  rewrite Hw. reflexivity.
Qed.

Lemma find_variables_no_index_witness :
  Forall (fun r => has_index r = false) [mkFileRecord 56 74 11 0 0 1] /\
  find_variables NVM_MEDIA_DATA [mkFileRecord 56 74 11 0 0 1] = Ok [].
Proof.
  assert (H : Forall (fun r => has_index r = false) [mkFileRecord 56 74 11 0 0 1])
    by (repeat constructor).
  split; [exact H|]. exact (find_variables_no_index NVM_MEDIA_DATA _ H).
Defined.

(** ** Table parsing: truncation and field ranges *)

Lemma py_slice_length_min (fs : bytes) (a w : Z) :
  0 <= a -> 0 <= w ->
  Z.of_nat (List.length (py_slice fs a (a + w))) = Z.min w (Z.of_nat (List.length fs) - a) \/
  (Z.of_nat (List.length fs) < a /\ List.length (py_slice fs a (a + w)) = 0%nat).
Proof.
  intros Ha Hw. unfold py_slice. rewrite length_firstn, length_skipn.
  destruct (Z.ltb_spec (Z.of_nat (List.length fs)) a); [right; split; lia | left; lia].
Qed.

Lemma read_hashes_short (fs : bytes) (k : nat) (off : Z) :
  0 <= off <= Z.of_nat (List.length fs) ->
  Z.of_nat (List.length fs) < off + 2 * Z.of_nat k ->
  read_hashes fs k off = Err StructError.
Proof.
  revert off. induction k as [|k IH]; intros off Hoff Hlt; [lia|]. cbn [read_hashes].
  unfold unpack_H.
  destruct (Z_le_gt_dec (off + 2) (Z.of_nat (List.length fs))) as [Hin|Hout].
  - rewrite py_slice_length by lia. replace (off + 2 - off) with 2 by lia. cbn [Nat.eqb bind].
    rewrite IH by lia. reflexivity.
  - destruct (py_slice_length_min fs off 2 ltac:(lia) ltac:(lia)) as [Hl|[Hl _]]; [|lia].
    destruct (Nat.eqb_spec (List.length (py_slice fs off (off + 2))) 2); [lia|]. reflexivity.
Qed.

Lemma read_records_short (fs : bytes) (k : nat) (off : Z) :
  0 <= off <= Z.of_nat (List.length fs) ->
  Z.of_nat (List.length fs) < off + 22 * Z.of_nat k ->
  read_records fs k off = Err StructError.
Proof.
  revert off. induction k as [|k IH]; intros off Hoff Hlt; [lia|]. cbn [read_records].
  destruct (Z_le_gt_dec (off + 22) (Z.of_nat (List.length fs))) as [Hin|Hout].
  - rewrite unpack_record_at by lia. cbn [bind]. rewrite IH by lia. reflexivity.
  - unfold unpack_record.
    destruct (py_slice_length_min fs off 22 ltac:(lia) ltac:(lia)) as [Hl|[Hl _]]; [|lia].
    destruct (Nat.eqb_spec (List.length (py_slice fs off (off + 22))) 22); [lia|]. reflexivity.
Qed.

(** An image of at least 8 bytes whose hash and record tables (N = the u16
    at offset 6) run past its end makes the table parsing raise
    struct.error. *)
Theorem parse_tables_truncated (fs : bytes) :
  let n := le_uint (py_slice fs 6 8) in
  8 <= Z.of_nat (List.length fs) ->
  Z.of_nat (List.length fs) < 8 + 2 * n + 22 * n ->
  parse_tables fs = Err StructError.
Proof.
  intros n H8 Hlt.
  assert (Hn : 0 <= n) by apply le_uint_nonneg.
  assert (Hx : forall k, 0 <= k < 6 -> exists v, py_index fs k = Ok v).
  { intros k Hk. unfold py_index.
    destruct (Z.ltb_spec k 0); [lia|].
    destruct (Z.ltb_spec k 0); [lia|].
    destruct (Z.leb_spec (Z.of_nat (List.length fs)) k); [lia|]. simpl.
    destruct (nth_error fs (Z.to_nat k)) eqn:E; [eexists; reflexivity|].
    apply nth_error_None in E. lia. }
  destruct (Hx 4 ltac:(lia)) as [hi Hhi]. destruct (Hx 5 ltac:(lia)) as [lo Hlo].
  unfold parse_tables. rewrite Hhi, Hlo. cbn [bind].
  unfold unpack_H. rewrite py_slice_length by lia.
  change (Z.to_nat (8 - 6)) with 2%nat. cbn [Nat.eqb bind]. fold n.
  destruct (Z_le_gt_dec (8 + 2 * n) (Z.of_nat (List.length fs))) as [Hh|Hh].
  - rewrite read_hashes_ok by (rewrite ?Z2Nat.id; lia). cbn [bind fst snd].
    rewrite Z2Nat.id by exact Hn.
    rewrite read_records_short by (rewrite ?Z2Nat.id; lia). reflexivity.
  - rewrite read_hashes_short by (rewrite ?Z2Nat.id; lia). reflexivity.
Qed.

Lemma parse_tables_truncated_witness :
  8 <= Z.of_nat (List.length (firstn 40 NVM_MEDIA_DATA)) /\
  parse_tables (firstn 40 NVM_MEDIA_DATA) = Err StructError.
Proof.
  split; [vm_compute; discriminate|].
  apply parse_tables_truncated; vm_compute; first [reflexivity | discriminate].
Defined.

(** ** main: edge cases and the per-record pass *)

(** An "MPFS" image declaring no files: [main] prints the header with 0
    files, 0 index files and 0 variables, and nothing else. *)
Theorem main_no_files (gunzip : bytes -> result bytes) (fs : bytes) (o : options)
    (hi lo : Z) :
  py_slice fs 0 4 = mpfs_sig -> 8 <= Z.of_nat (List.length fs) ->
  py_index fs 4 = Ok hi -> py_index fs 5 = Ok lo ->
  le_uint (py_slice fs 6 8) = 0 ->
  main gunzip fs o = [EvHeader hi lo 0 0 0].
Proof.
  intros Hsig H8 Hhi Hlo Hn. unfold main, bytes_eqb. rewrite Hsig.
  destruct (list_eq_dec Byte.byte_eq_dec mpfs_sig mpfs_sig) as [_|C]; [|contradiction].
  cbn [negb]. unfold parse_tables. rewrite Hhi, Hlo. cbn [bind].
  unfold unpack_H. rewrite py_slice_length by lia.
  change (Z.to_nat (8 - 6)) with 2%nat. cbn [Nat.eqb bind]. rewrite Hn.
  cbn. destruct (list_variables o), (extract o); reflexivity.
Qed.

Lemma main_no_files_witness :
  main no_gzip (mk [0x4d; 0x50; 0x46; 0x53; 2; 1; 0; 0]) opt_list = [EvHeader 2 1 0 0 0].
Proof.
  apply main_no_files; vm_compute; first [reflexivity | discriminate].
Defined.

Lemma py_range_head (a b : Z) :
  a < b -> exists rest, py_range a b 8 = a :: rest.
Proof.
  intros H. unfold py_range.
  assert (Hf : (1 <= Z.to_nat ((b - a + 8 - 1) / 8))%nat).
  { assert (1 <= (b - a + 8 - 1) / 8) by (apply Z.div_le_lower_bound; lia). lia. }
  destruct (Z.to_nat ((b - a + 8 - 1) / 8)) as [|f]; [lia|].
  cbn [py_range_fuel]. destruct (Z.ltb_spec a b); [|lia]. eexists. reflexivity.
Qed.

(** When the first record has an index and the first 8-byte pair of its
    companion runs past the end of the image, [main] raises struct.error
    before printing anything (the variables are gathered before the
    header is printed). *)
Theorem main_index_past_end (gunzip : bytes -> result bytes) (fs : bytes) (o : options)
    (t : tables) (r v : FileRecord) (rest : list FileRecord) :
  py_slice fs 0 4 = mpfs_sig -> parse_tables fs = Ok t ->
  record t = r :: v :: rest -> has_index r = true ->
  0 <= DataPtr v -> 0 < Len v -> Z.of_nat (List.length fs) < DataPtr v + 8 ->
  main gunzip fs o = [EvRaised StructError].
Proof.
  intros Hsig Ht Hrec Hr Hd Hl Hend. unfold main, bytes_eqb. rewrite Hsig.
  destruct (list_eq_dec Byte.byte_eq_dec mpfs_sig mpfs_sig) as [_|C]; [|contradiction].
  cbn [negb]. rewrite Ht, Hrec. cbn [walk]. rewrite Hr. cbn [negb].
  unfold companion_range.
  destruct (py_range_head (DataPtr v) (DataPtr v + Len v) ltac:(lia)) as [is ->].
  cbn [scan_pairs]. unfold unpack_II.
  destruct (py_slice_length_min fs (DataPtr v) 8 Hd ltac:(lia)) as [Hs|[_ Hs]];
    destruct (Nat.eqb_spec (List.length (py_slice fs (DataPtr v) (DataPtr v + 8))) 8);
    try lia; reflexivity.
Qed.

(** A has-index record whose 8-byte companion pair starts at byte 52
    of a 56-byte image. *)
Definition img_pair_past_end : bytes := mk (
  [0x4d; 0x50; 0x46; 0x53; 2; 1] ++ u16 2 ++ [0; 0; 0; 0] ++
  rec_bytes 0 0 0 2 ++ rec_bytes 0 52 8 0).

Lemma main_index_past_end_witness :
  main no_gzip img_pair_past_end opt_list = [EvRaised StructError].
Proof.
  pose (t := match parse_tables img_pair_past_end with
             | Ok t => t | Err _ => mkTables 0 0 0 [] [] 0 end).
  assert (Ht : parse_tables img_pair_past_end = Ok t) by (vm_compute; reflexivity).
  assert (Hrec : record t = [mkFileRecord 0 0 0 0 0 2; mkFileRecord 0 52 8 0 0 0])
    by (vm_compute; reflexivity).
  exact (main_index_past_end no_gzip img_pair_past_end opt_list t
           (mkFileRecord 0 0 0 0 0 2) (mkFileRecord 0 52 8 0 0 0) []
           ltac:(vm_compute; reflexivity) Ht Hrec eq_refl
           ltac:(vm_compute; discriminate) ltac:(vm_compute; reflexivity)
           ltac:(vm_compute; reflexivity)).
Defined.

(** In the per-record pass, a record reached with no pending has-index
    record (the first record, or one after a record without index) whose
    name is empty ends the pass: "Bad file entry: should have a name" is
    reported after the events of the earlier records, and the loop is
    left ([break]). *)
Theorem pass_bad_name_entry (gunzip : bytes -> result bytes) (fs : bytes)
    (o : options) (pre post : list FileRecord) (r : FileRecord) (tr : list event) :
  pass gunzip fs o 0 (Running None) pre = (tr, Running None) ->
  py_index fs (StringPtr r) = Ok 0 ->
  pass gunzip fs o 0 (Running None) (pre ++ r :: post) =
    (tr ++ [EvBadEntryName (Z.of_nat (List.length pre))], Broke).
Proof.
  intros Hp Hb. rewrite pass_app, Hp. cbn [pass].
  unfold process_record at 1. rewrite Hb. cbn [Z.eqb].
  rewrite pass_not_running by congruence. rewrite app_nil_r, Z.add_0_l. reflexivity.
Qed.

Lemma pass_bad_name_entry_witness :
  pass no_gzip img_conflict opt_none 0 (Running None) ([] ++ [conflict_v]) =
    ([] ++ [EvBadEntryName 0], Broke).
Proof.
  exact (pass_bad_name_entry no_gzip img_conflict opt_none [] [] conflict_v []
           eq_refl ltac:(vm_compute; reflexivity)).
Defined.

(** A companion record (one right after a has-index record named [prev])
    with an empty name is named [prev + "-index"]; it is listed only in
    verbose mode, never extracted, and passes the companion role on to the
    next record only if it has the has-index flag itself. *)
Theorem process_companion (gunzip : bytes -> result bytes) (fs : bytes) (o : options)
    (i : Z) (prev : pystr) (r : FileRecord) :
  prev <> [] -> py_index fs (StringPtr r) = Ok 0 ->
  process_record gunzip fs o i (Some prev) r =
    (if list_files o && verbose o then [EvListVerbose i r (prev ++ lit "-index")] else [],
     Running (if has_index r then Some (prev ++ lit "-index") else None)).
Proof.
  intros Hne Hb. unfold process_record. rewrite Hb. cbn [Z.eqb negb].
  assert (Hn : py_not (Some prev) = false) by (destruct prev; [contradiction | reflexivity]).
  rewrite Hn. cbn [andb].
  destruct (list_files o), (verbose o); reflexivity.
Qed.

Lemma process_companion_witness :
  process_record no_gzip img_conflict (mkOptions false true true false) 1 (Some (lit "A"))
    conflict_v = ([], Running None).
Proof.
  exact (process_companion no_gzip img_conflict (mkOptions false true true false) 1
           (lit "A") conflict_v ltac:(discriminate) ltac:(vm_compute; reflexivity)).
Defined.

(** A named record reached with no pending has-index record is extracted
    under its decoded name, after its listing line:
    - unless its Flags are exactly 1, the data written is the raw slice
      [fs[DataPtr:DataPtr+Len]];
    - with Flags = 1 the data written is [gzip.decompress] of that slice;
      if decompression fails, its exception ends the run there, and
      nothing is written. *)
Theorem process_named_extract (gunzip : bytes -> result bytes) (fs : bytes) (o : options)
    (i : Z) (r : FileRecord) (b : Z) (name : pystr) :
  py_index fs (StringPtr r) = Ok b -> b <> 0 ->
  get_string fs (StringPtr r) false = Ok name ->
  extract o = true ->
  let listing :=
    if list_files o then
      if verbose o then [EvListVerbose i r name] else [EvList i r name]
    else [] in
  let raw := py_slice fs (DataPtr r) (DataPtr r + Len r) in
  let next := Running (if has_index r then Some name else None) in
  (Flags r <> 1 ->
   process_record gunzip fs o i None r = (listing ++ [EvExtracted name raw], next)) /\
  (forall data, Flags r = 1 -> gunzip raw = Ok data ->
   process_record gunzip fs o i None r = (listing ++ [EvExtracted name data], next)) /\
  (forall e, Flags r = 1 -> gunzip raw = Err e ->
   process_record gunzip fs o i None r = (listing ++ [EvRaised e], Crashed)).
Proof.
  intros Hb Hnz Hname Hx listing raw next.
  assert (Hp : process_record gunzip fs o i None r =
            match extract_payload gunzip fs r with
            | Ok data => (listing ++ [EvExtracted name data], next)
            | Err e => (listing ++ [EvRaised e], Crashed)
            end).
  { unfold process_record. rewrite Hb.
    destruct (Z.eqb_spec b 0); [contradiction|]. rewrite Hname.
    cbn [py_not andb]. rewrite Hx. reflexivity. }
  rewrite Hp. unfold extract_payload. fold raw.
  split; [|split].
  - intros Hf. destruct (Z.eqb_spec (Flags r) 1); [contradiction|]. reflexivity.
  - intros data Hf Hg. rewrite Hf, Z.eqb_refl, Hg. reflexivity.
  - intros e Hf Hg. rewrite Hf, Z.eqb_refl, Hg. reflexivity.
Qed.

(** [FILE.txt] of [NVM_MEDIA_DATA] is written raw; with its Flags set to 1
    and a failing decompressor, the run stops with the decompressor's
    error. *)
Lemma process_named_extract_witness :
  process_record no_gzip NVM_MEDIA_DATA opt_extract 0 None (mkFileRecord 56 74 11 0 0 0) =
    ([] ++ [EvExtracted (lit "FILE.txt") (py_slice NVM_MEDIA_DATA 74 85)], Running None) /\
  process_record no_gzip NVM_MEDIA_DATA opt_extract 0 None (mkFileRecord 56 74 11 0 0 1) =
    ([] ++ [EvRaised GzipError], Crashed).
Proof.
  split.
  - exact (proj1 (process_named_extract no_gzip NVM_MEDIA_DATA opt_extract 0
             (mkFileRecord 56 74 11 0 0 0) 70 (lit "FILE.txt")
             ltac:(vm_compute; reflexivity) ltac:(discriminate)
             ltac:(vm_compute; reflexivity) eq_refl) ltac:(discriminate)).
  - exact (proj2 (proj2 (process_named_extract no_gzip NVM_MEDIA_DATA opt_extract 0
             (mkFileRecord 56 74 11 0 0 1) 70 (lit "FILE.txt")
             ltac:(vm_compute; reflexivity) ltac:(discriminate)
             ltac:(vm_compute; reflexivity) eq_refl)) GzipError eq_refl eq_refl).
Defined.
